(** * Firebase CRUD demo: the four route handlers of [crud.routes.ts]

    The router built by [crudRoutes db] binds four Express routes to
    asynchronous handlers. Every handler destructures its input, makes one
    awaited call on the injected Firestore client [db] inside a
    [try]/[catch], and sends one HTTP response.

    The handlers are embedded in a small exception-and-state monad over a
    "world" made of the database state behind the client, the console and
    the response object of the request. The Firestore client is the
    injected dependency: it is an interface ([FirestoreClient]) here, and
    the properties that depend on what the database does are stated
    against explicit laws of that interface. Instances are given: an
    in-memory document store, a client that is offline, and variants of
    the store that each break one law. *)

From stdpp Require Import gmap strings list fin_maps pretty.

Open Scope Z_scope.

#[local] Set Warnings "-register-all".

(** ** JavaScript values *)

(** The values a request body or a document can hold: JSON values, plus
    [undefined] (a missing property, or a body that was never parsed). *)
Inductive value : Type :=
  | VUndefined
  | VNull
  | VBool (b : bool)
  | VNum (n : Z)
  | VStr (s : string)
  | VArr (l : list value)
  | VObj (m : gmap string value).

(** What a [throw] carries. [TypeError] is raised by the language itself
    (destructuring [undefined]), [HttpError] by the response object, and
    [DbError] by the database client, with its status code. *)
Inductive exn : Type :=
  | TypeError (message : string)
  | HttpError (message : string)
  | DbError (code : string) (message : string).

(** Completion of an evaluation: a value, or a thrown exception. *)
Inductive completion (A : Type) : Type :=
  | Normal (a : A)
  | Throw (e : exn).
Arguments Normal {A} a.
Arguments Throw {A} e.

(** [const { k } = v]: reading property [k] while destructuring [v].
    Destructuring [undefined] or [null] throws; an object yields the
    property or [undefined]; the other values have no own property of the
    names used by the handlers. *)
Definition get_property (v : value) (k : string) : completion value :=
  match v with
  | VUndefined => Throw (TypeError "Cannot destructure property of undefined")
  | VNull => Throw (TypeError "Cannot destructure property of null")
  | VObj m => Normal (default VUndefined (m !! k))
  | _ => Normal VUndefined
  end.

(** ** HTTP requests and responses *)

Inductive payload : Type :=
  | Json (v : value)
  | Text (s : string).

Record Response : Type := mkResponse { status : Z; sent_body : payload }.

(** [req.params] holds the named path segments (always strings) and
    [req.body] whatever the body parser left there. *)
Record Request : Type := mkRequest {
  params : gmap string string;
  body : value
}.

(** [req.params.k], as a value. *)
Definition param (req : Request) (k : string) : value :=
  from_option VStr VUndefined (params req !! k).

(** [doc.exists] and [doc.data()] of a document snapshot. *)
Record DocumentSnapshot : Type := mkSnapshot { exists_ : bool; data : value }.

(** ** The injected database client *)

(** The part of [Firestore] that the handlers use. [collection] and [doc]
    build references synchronously and may throw on a bad path; [add],
    [get], [update] and [delete] are the awaited calls: they run against
    the database state and either resolve or reject. *)
Class FirestoreClient : Type := {
  db_state : Type;
  CollectionReference : Type;
  DocumentReference : Type;
  collection : value -> completion CollectionReference;
  doc : CollectionReference -> value -> completion DocumentReference;
  ref_id : DocumentReference -> string;
  add : CollectionReference -> value -> db_state
        -> completion DocumentReference * db_state;
  get : DocumentReference -> db_state -> completion DocumentSnapshot * db_state;
  update : DocumentReference -> value -> db_state -> completion unit * db_state;
  delete : DocumentReference -> db_state -> completion unit * db_state
}.

(** ** The handler monad *)

Section Handlers.
Context {db : FirestoreClient}.

(** What a handler can touch: the database behind [db], the console, and
    the response of the current request ([None] until it is sent). *)
Record World : Type := mkWorld {
  database : db_state;
  console : list exn;
  sent : option Response
}.

Definition M (A : Type) : Type := World -> completion A * World.

Definition ret {A} (a : A) : M A := fun w => (Normal a, w).

Definition bind {A B} (m : M A) (k : A -> M B) : M B :=
  fun w => match m w with
           | (Normal a, w') => k a w'
           | (Throw e, w') => (Throw e, w')
           end.

(** [try { m } catch (error) { h error }]: what [m] did before it threw
    stays done. *)
Definition try_catch {A} (m : M A) (h : exn -> M A) : M A :=
  fun w => match m w with
           | (Normal a, w') => (Normal a, w')
           | (Throw e, w') => h e w'
           end.

(** A synchronous expression that may throw. *)
Definition eval {A} (c : completion A) : M A := fun w => (c, w).

(** [await call]: run a client call against the database. *)
Definition await {A} (call : db_state -> completion A * db_state) : M A :=
  fun w => let (r, s) := call (database w) in
           (r, mkWorld s (console w) (sent w)).

(** [console.log(error)]. *)
Definition console_log (e : exn) : M unit :=
  fun w => (Normal tt, mkWorld (database w) (console w ++ [e]) (sent w)).

(** Sending the response; a second send on the same response throws. *)
Definition send (r : Response) : M unit :=
  fun w => match sent w with
           | None => (Normal tt, mkWorld (database w) (console w) (Some r))
           | Some _ =>
               (Throw (HttpError "Cannot set headers after they are sent to the client"), w)
           end.

(** [res.status(code).json(v)] and [res.status(code).send(text)]. *)
Definition res_status_json (code : Z) (v : value) : M unit :=
  send (mkResponse code (Json v)).
Definition res_status_send (code : Z) (text : string) : M unit :=
  send (mkResponse code (Text text)).

Notation "'let*' x ':=' m 'in' k" := (bind m (fun x => k))
  (at level 10, x pattern, m at level 100, k at level 200).
Notation "m ';;' k" := (bind m (fun _ => k))
  (at level 100, k at level 200, right associativity).

(** ** The four handlers *)

(** [router.post('/create', ...)] *)
Definition post_create (req : Request) : M unit :=
  try_catch
    (let* collection_ := eval (get_property (body req) "collection") in
     let* data_ := eval (get_property (body req) "data") in
     let* coll := eval (collection collection_) in
     let* docRef := await (add coll data_) in
     res_status_json 201 (VObj {[ "id" := VStr (ref_id docRef) ]}))
    (fun error =>
       console_log error ;;
       res_status_send 500 "Error creating document").

(** [router.get('/read/:collection/:id', ...)] *)
Definition get_read (req : Request) : M unit :=
  try_catch
    (let collection_ := param req "collection" in
     let id := param req "id" in
     let* coll := eval (collection collection_) in
     let* docRef := eval (doc coll id) in
     let* snapshot := await (get docRef) in
     if negb (exists_ snapshot)
     then res_status_send 404 "Document not found"
     else res_status_json 200 (data snapshot))
    (fun error =>
       console_log error ;;
       res_status_send 500 "Error reading document").

(** [router.put('/update/:collection/:id', ...)] *)
Definition put_update (req : Request) : M unit :=
  try_catch
    (let collection_ := param req "collection" in
     let id := param req "id" in
     let* data_ := eval (get_property (body req) "data") in
     let* coll := eval (collection collection_) in
     let* docRef := eval (doc coll id) in
     await (update docRef data_) ;;
     res_status_send 200 "Document updated")
    (fun error =>
       console_log error ;;
       res_status_send 500 "Error updating document").

(** [router.delete('/delete/:collection/:id', ...)] *)
Definition delete_delete (req : Request) : M unit :=
  try_catch
    (let collection_ := param req "collection" in
     let id := param req "id" in
     let* coll := eval (collection collection_) in
     let* docRef := eval (doc coll id) in
     await (delete docRef) ;;
     res_status_send 200 "Document deleted")
    (fun error =>
       console_log error ;;
       res_status_send 500 "Error deleting document").

(** The four routes that [crudRoutes db] binds on the router. *)
Inductive route : Type := Create | Read | Update | Delete.

Definition crudRoutes (r : route) : Request -> M unit :=
  match r with
  | Create => post_create
  | Read => get_read
  | Update => put_update
  | Delete => delete_delete
  end.

(** The text each handler sends from its [catch] block. *)
Definition static_message (r : route) : string :=
  match r with
  | Create => "Error creating document"
  | Read => "Error reading document"
  | Update => "Error updating document"
  | Delete => "Error deleting document"
  end.

(** Serving one request: the handler starts on a fresh response and an
    empty console, with the database in state [s]. *)
Definition serve (h : Request -> M unit) (req : Request) (s : db_state)
  : completion unit * World :=
  h req (mkWorld s [] None).

(** The response that serving a request produced, and the database it left. *)
Definition response_of (o : completion unit * World) : option Response := sent (o.2).
Definition database_of (o : completion unit * World) : db_state := database (o.2).

End Handlers.

(** [req.params] of a request matched by [/:collection/:id]. *)
Definition path_params (c i : string) : gmap string string :=
  {[ "collection" := c; "id" := i ]}.

(** ** Laws of a database client

    What the handlers leave to the database: each law is a property of
    the injected client, not of the router. *)

Section ClientLaws.
Context (db : FirestoreClient).




(** A call that rejects has changed nothing. *)
Definition FailureAtomic : Prop :=
  (forall coll d s e s', add coll d s = (Throw e, s') -> s' = s) /\
  (forall docRef s e s', get docRef s = (Throw e, s') -> s' = s) /\
  (forall docRef d s e s', update docRef d s = (Throw e, s') -> s' = s) /\
  (forall docRef s e s', delete docRef s = (Throw e, s') -> s' = s).


End ClientLaws.

(** ** A client that records its calls

    [Spy db] behaves as [db] and keeps, next to the database state, the
    list of the awaited calls it received, with their arguments. *)

Inductive Call {db : FirestoreClient} : Type :=
  | CallAdd (coll : CollectionReference) (d : value)
  | CallGet (docRef : DocumentReference)
  | CallUpdate (docRef : DocumentReference) (d : value)
  | CallDelete (docRef : DocumentReference).

Definition recording {db : FirestoreClient} {A}
    (c : Call) (call : db_state -> completion A * db_state)
  : db_state * list Call -> completion A * (db_state * list Call) :=
  fun st => let (r, s') := call st.1 in (r, (s', st.2 ++ [c])).

Definition Spy (db : FirestoreClient) : FirestoreClient := {|
  db_state := (@db_state db * list (@Call db))%type;
  CollectionReference := @CollectionReference db;
  DocumentReference := @DocumentReference db;
  collection := @collection db;
  doc := @doc db;
  ref_id := @ref_id db;
  add := fun coll d => recording (CallAdd coll d) (add coll d);
  get := fun docRef => recording (CallGet docRef) (get docRef);
  update := fun docRef d => recording (CallUpdate docRef d) (update docRef d);
  delete := fun docRef => recording (CallDelete docRef) (delete docRef)
|}.

(** The calls that serving a request on [Spy db] recorded. *)
Definition recorded {db : FirestoreClient}
    (o : completion unit * @World (Spy db)) : list (@Call db) :=
  (@database (Spy db) o.2).2.

(** ** An in-memory document store *)

Module Mem.

(** Documents by (collection, id), and the counter of the identifiers
    handed out so far. *)
Record store : Type := mkStore {
  docs : gmap (string * string) (gmap string value);
  next : nat
}.

Definition empty : store := mkStore ∅ 0.

Definition invalid_argument (what : string) : exn :=
  DbError "invalid-argument" what.

(** A path segment must be a non-empty string. *)
Definition segment (v : value) : completion string :=
  match v with
  | VStr s => if bool_decide (s = "") then Throw (invalid_argument "empty path")
              else Normal s
  | _ => Throw (invalid_argument "path is not a string")
  end.

Definition mem_add (c : string) (d : value) (st : store)
  : completion (string * string) * store :=
  match d with
  | VObj m =>
      let i := "doc" +:+ pretty (next st) in
      (Normal (c, i), mkStore (<[(c, i) := m]> (docs st)) (S (next st)))
  | _ => (Throw (invalid_argument "data is not an object"), st)
  end.

Definition mem_get (r : string * string) (st : store)
  : completion DocumentSnapshot * store :=
  match docs st !! r with
  | Some m => (Normal (mkSnapshot true (VObj m)), st)
  | None => (Normal (mkSnapshot false VUndefined), st)
  end.

(** Updating merges into an existing document and rejects when there is
    none. *)
Definition mem_update (r : string * string) (d : value) (st : store)
  : completion unit * store :=
  match d with
  | VObj m =>
      match docs st !! r with
      | Some old => (Normal tt, mkStore (<[r := m ∪ old]> (docs st)) (next st))
      | None => (Throw (DbError "not-found" "no document to update"), st)
      end
  | _ => (Throw (invalid_argument "data is not an object"), st)
  end.

(** Deleting resolves whether the document exists or not. *)
Definition mem_delete (r : string * string) (st : store)
  : completion unit * store :=
  (Normal tt, mkStore (base.delete r (docs st)) (next st)).

Definition client : FirestoreClient := {|
  db_state := store;
  CollectionReference := string;
  DocumentReference := string * string;
  collection := segment;
  doc := fun c v => match segment v with
                    | Normal i => Normal (c, i)
                    | Throw e => Throw e
                    end;
  ref_id := snd;
  add := mem_add;
  get := mem_get;
  update := mem_update;
  delete := mem_delete
|}.

End Mem.

(** ** A client that cannot reach the database: every awaited call rejects *)

Module Offline.

Definition unavailable : exn := DbError "unavailable" "the service is unavailable".

Definition client : FirestoreClient := {|
  db_state := unit;
  CollectionReference := value;
  DocumentReference := value * value;
  collection := fun v => Normal v;
  doc := fun c v => Normal (c, v);
  ref_id := fun _ => "";
  add := fun _ _ s => (Throw unavailable, s);
  get := fun _ s => (Throw unavailable, s);
  update := fun _ _ s => (Throw unavailable, s);
  delete := fun _ s => (Throw unavailable, s)
|}.

End Offline.

(** ** Clients that break a law

    Each is the in-memory store with one call changed. *)

Module Unlawful.





(** Adding stores the document, and the acknowledgement is lost: the
    call rejects after the write. *)
Definition add_unacknowledged (c : string) (d : value) (st : Mem.store)
  : completion (string * string) * Mem.store :=
  match Mem.mem_add c d st with
  | (Normal _, st') =>
      (Throw (DbError "deadline-exceeded" "no acknowledgement"), st')
  | rejected => rejected
  end.

Definition committing : FirestoreClient := {|
  db_state := Mem.store;
  CollectionReference := string;
  DocumentReference := string * string;
  collection := Mem.segment;
  doc := @doc Mem.client;
  ref_id := snd;
  add := add_unacknowledged;
  get := Mem.mem_get;
  update := Mem.mem_update;
  delete := Mem.mem_delete
|}.



End Unlawful.

(** The scenario of the specification, on the in-memory store. *)
Definition john : gmap string value := {[ "name" := VStr "John"; "age" := VNum 30 ]}.
Definition create_john : Request :=
  mkRequest ∅ (VObj {[ "collection" := VStr "users"; "data" := VObj john ]}).
Definition users_doc0 : Request := mkRequest (path_params "users" "doc0") VUndefined.
Definition update_age : Request :=
  mkRequest (path_params "users" "doc0") (VObj {[ "data" := VObj {[ "age" := VNum 31 ]} ]}).

Definition after_create : Mem.store :=
  database_of (serve (db:=Mem.client) post_create create_john Mem.empty).
Definition after_update : Mem.store :=
  database_of (serve (db:=Mem.client) put_update update_age after_create).
Definition after_delete : Mem.store :=
  database_of (serve (db:=Mem.client) delete_delete users_doc0 after_update).

(** "The awaited database call of route [r] throws [e]": the request got
    as far as its [await], and the call rejected with [e], leaving the
    database in state [s']. *)
Inductive awaited_call_throws {db : FirestoreClient}
  : route -> Request -> db_state -> exn -> db_state -> Prop :=
  | add_throws req c d coll s e s' :
      get_property (body req) "collection" = Normal c ->
      get_property (body req) "data" = Normal d ->
      collection c = Normal coll ->
      add coll d s = (Throw e, s') ->
      awaited_call_throws Create req s e s'
  | get_throws req coll docRef s e s' :
      collection (param req "collection") = Normal coll ->
      doc coll (param req "id") = Normal docRef ->
      get docRef s = (Throw e, s') ->
      awaited_call_throws Read req s e s'
  | update_throws req d coll docRef s e s' :
      get_property (body req) "data" = Normal d ->
      collection (param req "collection") = Normal coll ->
      doc coll (param req "id") = Normal docRef ->
      update docRef d s = (Throw e, s') ->
      awaited_call_throws Update req s e s'
  | delete_throws req coll docRef s e s' :
      collection (param req "collection") = Normal coll ->
      doc coll (param req "id") = Normal docRef ->
      delete docRef s = (Throw e, s') ->
      awaited_call_throws Delete req s e s'.

(** "The request throws before its awaited call": a destructuring, or
    one of the synchronous [collection] and [doc], throws [e]. *)
Inductive throws_before_call {db : FirestoreClient}
  : route -> Request -> exn -> Prop :=
  | create_body_throws req e :
      get_property (body req) "collection" = Throw e ->
      throws_before_call Create req e
  | create_collection_throws req c d e :
      get_property (body req) "collection" = Normal c ->
      get_property (body req) "data" = Normal d ->
      collection c = Throw e ->
      throws_before_call Create req e
  | read_collection_throws req e :
      collection (param req "collection") = Throw e ->
      throws_before_call Read req e
  | read_doc_throws req coll e :
      collection (param req "collection") = Normal coll ->
      doc coll (param req "id") = Throw e ->
      throws_before_call Read req e
  | update_body_throws req e :
      get_property (body req) "data" = Throw e ->
      throws_before_call Update req e
  | update_collection_throws req d e :
      get_property (body req) "data" = Normal d ->
      collection (param req "collection") = Throw e ->
      throws_before_call Update req e
  | update_doc_throws req d coll e :
      get_property (body req) "data" = Normal d ->
      collection (param req "collection") = Normal coll ->
      doc coll (param req "id") = Throw e ->
      throws_before_call Update req e
  | delete_collection_throws req e :
      collection (param req "collection") = Throw e ->
      throws_before_call Delete req e
  | delete_doc_throws req coll e :
      collection (param req "collection") = Normal coll ->
      doc coll (param req "id") = Throw e ->
      throws_before_call Delete req e.

(** "The awaited database call of route [r] resolves": the request got
    as far as its [await], and the call resolved, leaving the database in
    state [s']. *)
Inductive awaited_call_resolves {db : FirestoreClient}
  : route -> Request -> db_state -> db_state -> Prop :=
  | add_resolves req c d coll docRef s s' :
      get_property (body req) "collection" = Normal c ->
      get_property (body req) "data" = Normal d ->
      collection c = Normal coll ->
      add coll d s = (Normal docRef, s') ->
      awaited_call_resolves Create req s s'
  | get_resolves req coll docRef snapshot s s' :
      collection (param req "collection") = Normal coll ->
      doc coll (param req "id") = Normal docRef ->
      get docRef s = (Normal snapshot, s') ->
      awaited_call_resolves Read req s s'
  | update_resolves req d coll docRef s s' :
      get_property (body req) "data" = Normal d ->
      collection (param req "collection") = Normal coll ->
      doc coll (param req "id") = Normal docRef ->
      update docRef d s = (Normal tt, s') ->
      awaited_call_resolves Update req s s'
  | delete_resolves req coll docRef s s' :
      collection (param req "collection") = Normal coll ->
      doc coll (param req "id") = Normal docRef ->
      delete docRef s = (Normal tt, s') ->
      awaited_call_resolves Delete req s s'.

(** The responses a route can send: what its handler passes to
    [res.status(...).json(...)] and [res.status(...).send(...)]. *)
Definition may_send (r : route) (resp : Response) : Prop :=
  match r with
  | Create =>
      (exists i, resp = mkResponse 201 (Json (VObj {[ "id" := VStr i ]}))) \/
      resp = mkResponse 500 (Text "Error creating document")
  | Read =>
      (exists v, resp = mkResponse 200 (Json v)) \/
      resp = mkResponse 404 (Text "Document not found") \/
      resp = mkResponse 500 (Text "Error reading document")
  | Update =>
      resp = mkResponse 200 (Text "Document updated") \/
      resp = mkResponse 500 (Text "Error updating document")
  | Delete =>
      resp = mkResponse 200 (Text "Document deleted") \/
      resp = mkResponse 500 (Text "Error deleting document")
  end.

(** ** The router

    [const router = Router()] is created once, when the module is loaded;
    [crudRoutes db] adds its four routes to that router and returns it. *)

Module Express.

(** The method of a request, as the router compares it: its name in
    lower case (["get"], ["post"], ["head"], ...). *)
Definition method : Type := string.

(** One entry of the router's stack: [router.METHOD(path, handler)], with
    the client that the handler closes over. *)
Record layer : Type := mkLayer {
  layer_method : method;
  layer_path : string;
  layer_db : FirestoreClient;
  layer_handle : Request -> @M layer_db unit
}.

(** The stack of the router, in the order of registration. *)
Definition Router : Type := list layer.

(** [const router = Router()] *)
Definition router : Router := [].

(** [crudRoutes(db)], on the router as it is when the call is made. *)
Definition crudRoutes (db : FirestoreClient) (r : Router) : Router :=
  r ++ [ mkLayer "post" "/create" db post_create;
         mkLayer "get" "/read/:collection/:id" db get_read;
         mkLayer "put" "/update/:collection/:id" db put_update;
         mkLayer "delete" "/delete/:collection/:id" db delete_delete ].

(** Whether a layer takes a request of method [m]: a route bound to one
    method takes that method, and a route without a handler for
    ["head"] takes a ["head"] request as a ["get"]. *)
Definition handles_method (l : layer) (m : method) : bool :=
  let name :=
    if bool_decide (m = "head") && negb (bool_decide (layer_method l = "head"))
    then "get" else m in
  bool_decide (layer_method l = name).

Section Dispatch.
(** How a route path is matched against the path of a request, giving
    [req.params]: this is the router's business and is left open. *)
Variable path_match : string -> string -> option (gmap string string).

(** The router hands a request to the first layer of the stack whose
    method and path match; the handlers here take no [next], so no later
    layer runs. *)
Fixpoint dispatch (r : Router) (m : method) (path : string)
  : option (layer * gmap string string) :=
  match r with
  | [] => None
  | l :: rest =>
      if handles_method l m
      then match path_match (layer_path l) path with
           | Some ps => Some (l, ps)
           | None => dispatch rest m path
           end
      else dispatch rest m path
  end.

End Dispatch.

End Express.

(** Unfolding a handler down to the client calls it makes. *)
Ltac unfold_handler :=
  unfold serve, response_of, database_of, recorded, crudRoutes,
    post_create, get_read, put_update, delete_delete,
    try_catch, bind, eval, await,
    console_log, res_status_json, res_status_send, send in *;
  cbn [fst snd database console sent Spy
       db_state CollectionReference DocumentReference
       collection doc ref_id add get update delete] in *;
  unfold recording in *;
  cbn [fst snd] in *.

(** Case analysis on the next client call or destructuring step: the
    innermost [match] is rewritten with a known equation, or split. *)
Ltac split_on x :=
  lazymatch x with
  | context [match _ with _ => _ end] => fail
  | _ => destruct x eqn:?
  end.

Ltac next_step :=
  match goal with
  | H : ?x = _ |- context [match ?x with _ => _ end] => rewrite H
  | H : ?x = _, H' : context [match ?x with _ => _ end] |- _ => rewrite H in H'
  | |- context [match ?x with _ => _ end] => split_on x
  | H : context [match ?x with _ => _ end] |- _ => split_on x
  end;
  cbn [fst snd database console sent status negb] in *.

Example scenario_create :
  response_of (serve (db:=Mem.client) post_create create_john Mem.empty)
  = Some (mkResponse 201 (Json (VObj {[ "id" := VStr "doc0" ]}))).
Proof. vm_compute. reflexivity. Qed.

Example scenario_read :
  response_of (serve (db:=Mem.client) get_read users_doc0 after_create)
  = Some (mkResponse 200 (Json (VObj john))).
Proof. vm_compute. reflexivity. Qed.

Example scenario_update :
  response_of (serve (db:=Mem.client) put_update update_age after_create)
  = Some (mkResponse 200 (Text "Document updated")).
Proof. vm_compute. reflexivity. Qed.

Example scenario_read_updated :
  response_of (serve (db:=Mem.client) get_read users_doc0 after_update)
  = Some (mkResponse 200 (Json (VObj {[ "name" := VStr "John"; "age" := VNum 31 ]}))).
Proof. vm_compute. reflexivity. Qed.

Example scenario_delete :
  response_of (serve (db:=Mem.client) delete_delete users_doc0 after_update)
  = Some (mkResponse 200 (Text "Document deleted")).
Proof. vm_compute. reflexivity. Qed.

Example scenario_read_deleted :
  response_of (serve (db:=Mem.client) get_read users_doc0 after_delete)
  = Some (mkResponse 404 (Text "Document not found")).
Proof. vm_compute. reflexivity. Qed.

(** ** The in-memory store satisfies the laws *)

Lemma mem_segment_inv v s : Mem.segment v = Normal s -> v = VStr s /\ s <> "".
Proof.
  destruct v; simpl; try discriminate.
  case_bool_decide; [discriminate|]. intros [= ->]. done.
Qed.

Lemma mem_segment_ok s : s <> "" -> Mem.segment (VStr s) = Normal s.
Proof. intros Hs. simpl. by rewrite bool_decide_eq_false_2. Qed.




Lemma mem_failure_atomic : FailureAtomic Mem.client.
Proof.
  repeat split; simpl.
  - intros coll d s e s'. unfold Mem.mem_add. destruct d; congruence.
  - intros r s e s'. unfold Mem.mem_get. destruct (Mem.docs s !! r); congruence.
  - intros r d s e s'. unfold Mem.mem_update.
    destruct d; try congruence. destruct (Mem.docs s !! r); congruence.
  - intros r s e s'. unfold Mem.mem_delete. congruence.
Qed.


Lemma offline_failure_atomic : FailureAtomic Offline.client.
Proof. repeat split; simpl; congruence. Qed.

(** ** Requests *)



(** ** Properties of the handlers *)

Section HandlerProperties.
Context {db : FirestoreClient}.

(** X1. Every handler returns normally and has sent a response, whatever
    the request, the database and the client do: no exception leaves a
    handler, and none tries to send twice. *)
Lemma handlers_always_return (r : route) (req : Request) (s : db_state) :
  (serve (crudRoutes r) req s).1 = Normal tt /\
  is_Some (response_of (serve (crudRoutes r) req s)).
Proof.
  destruct r; unfold_handler; repeat next_step;
    (split; [reflexivity | eexists; reflexivity]).
Qed.

(** C1. Whatever the route and the request, when the awaited database
    call throws an exception [e], the handler returns normally (nothing
    is propagated), has logged exactly [e] on the console, and has sent
    status 500 with the static message of the route; the response is the
    same for every [e]. *)
Theorem database_exception_gives_500
    (r : route) (req : Request) (s s' : db_state) (e : exn) :
  awaited_call_throws r req s e s' ->
  serve (crudRoutes r) req s
  = (Normal tt,
     mkWorld s' [e] (Some (mkResponse 500 (Text (static_message r))))).
Proof.
  destruct 1; unfold_handler; repeat next_step; reflexivity.
Qed.

(** C2. When the [get] call of a Read succeeds with a snapshot, the
    response is 404 'Document not found' exactly when the snapshot does
    not exist, and is otherwise 200 with the snapshot's data as body. *)
Theorem read_responds_404_iff_absent
    (req : Request) coll docRef snapshot (s s' : db_state) :
  collection (param req "collection") = Normal coll ->
  doc coll (param req "id") = Normal docRef ->
  get docRef s = (Normal snapshot, s') ->
  (response_of (serve get_read req s)
     = Some (mkResponse 404 (Text "Document not found"))
   <-> exists_ snapshot = false) /\
  (exists_ snapshot = true ->
   response_of (serve get_read req s)
     = Some (mkResponse 200 (Json (data snapshot)))).
Proof.
  intros Hcoll Hdoc Hget. unfold_handler. do 3 next_step.
  destruct (exists_ snapshot); cbn; (split; [split|]); congruence.
Qed.

(** C3. When the [add] call of a Create succeeds, the response is 201
    with body [{id: i}], where [i] is the identifier of the document
    reference that [add] returned. *)
Theorem create_responds_201_with_new_id
    (req : Request) c d coll docRef (s s' : db_state) :
  get_property (body req) "collection" = Normal c ->
  get_property (body req) "data" = Normal d ->
  collection c = Normal coll ->
  add coll d s = (Normal docRef, s') ->
  serve post_create req s
  = (Normal tt,
     mkWorld s' []
       (Some (mkResponse 201 (Json (VObj {[ "id" := VStr (ref_id docRef) ]}))))).
Proof.
  intros Hc Hd Hcoll Hadd. unfold_handler. repeat next_step. reflexivity.
Qed.

(** *** The outcome of a request whose awaited call resolved *)





Lemma delete_delete_resolved (req : Request) coll docRef (s s' : db_state) :
  collection (param req "collection") = Normal coll ->
  doc coll (param req "id") = Normal docRef ->
  delete docRef s = (Normal tt, s') ->
  serve delete_delete req s
  = (Normal tt, mkWorld s' [] (Some (mkResponse 200 (Text "Document deleted")))).
Proof.
  intros Hcoll Hdoc Hdel. unfold_handler. repeat next_step. reflexivity.
Qed.


(** *** Create, read, update and delete, and what is left to the client *)




(** *** What the handlers ask of the client *)

(** Recording does not change what a handler does: on [Spy db] it returns,
    answers, logs and leaves the database as on [db]. *)
Lemma spy_is_transparent (r : route) (req : Request) (s : db_state) log :
  let spied := serve (db:=Spy db) (crudRoutes r) req (s, log) in
  let plain := serve (crudRoutes r) req s in
  spied.1 = plain.1 /\
  response_of spied = response_of plain /\
  console spied.2 = console plain.2 /\
  (database_of spied).1 = database_of plain.
Proof.
  destruct r; unfold_handler; repeat next_step; simplify_eq; done.
Qed.

(** Serving a request makes at most one awaited call. *)
Lemma at_most_one_call (r : route) (req : Request) (s : db_state) :
  (length (recorded (serve (db:=Spy db) (crudRoutes r) req (s, []))) <= 1)%nat.
Proof.
  destruct r; unfold_handler; repeat next_step; simplify_eq; cbn; lia.
Qed.

(** C7. The value read from [req.body.data] is the very value that the
    client receives: a Create makes the single call [add coll d] and an
    Update the single call [update docRef d], with [d] the [data]
    property of the body. *)
Theorem data_forwarded_unchanged (req : Request) (d : value) :
  get_property (body req) "data" = Normal d ->
  (forall c coll s,
     get_property (body req) "collection" = Normal c ->
     collection c = Normal coll ->
     recorded (serve (db:=Spy db) post_create req (s, [])) = [CallAdd coll d]) /\
  (forall coll docRef s,
     collection (param req "collection") = Normal coll ->
     doc coll (param req "id") = Normal docRef ->
     recorded (serve (db:=Spy db) put_update req (s, [])) = [CallUpdate docRef d]).
Proof.
  intros Hd. split.
  - intros c coll s Hc Hcoll. unfold_handler.
    repeat next_step; simplify_eq; reflexivity.
  - intros coll docRef s Hcoll Hdoc. unfold_handler.
    repeat next_step; simplify_eq; reflexivity.
Qed.

(** Destructuring throws on the value, whatever the property read. *)
Lemma get_property_throws_alike (v : value) (k1 k2 : string) a e :
  get_property v k1 = Normal a -> get_property v k2 = Throw e -> False.
Proof. destruct v; discriminate. Qed.

(** What a request answered with 500 did: it threw before its awaited
    call and left the database alone, or its awaited call threw and the
    database is as that call left it. *)
Lemma answered_500_inv (r : route) (req : Request) (s : db_state) resp :
  response_of (serve (crudRoutes r) req s) = Some resp ->
  status resp = 500 ->
  (exists e,
     throws_before_call r req e /\
     database_of (serve (crudRoutes r) req s) = s) \/
  (exists e s',
     awaited_call_throws r req s e s' /\
     database_of (serve (crudRoutes r) req s) = s').
Proof.
  destruct r; unfold_handler; repeat next_step; intros; simplify_eq.
  all: first
      [ left; eexists; split; [econstructor; eassumption | reflexivity]
      | right; do 2 eexists; split; [econstructor; eassumption | reflexivity]
      | exfalso; eapply get_property_throws_alike; eassumption ].
Qed.

(** C8. A request makes at most one awaited call, and when it
    is answered with 500 the database is as it was, if the request threw
    before that call, or as the call that threw left it. Hence, on a
    client whose rejected calls change nothing, a request answered with
    500 leaves the database as it was, on every route. *)
Theorem failed_request_leaves_database
    (r : route) (req : Request) (s : db_state) resp :
  response_of (serve (crudRoutes r) req s) = Some resp ->
  status resp = 500 ->
  (length (recorded (serve (db:=Spy db) (crudRoutes r) req (s, []))) <= 1)%nat /\
  ((exists e,
      throws_before_call r req e /\
      database_of (serve (crudRoutes r) req s) = s) \/
   (exists e s',
      awaited_call_throws r req s e s' /\
      database_of (serve (crudRoutes r) req s) = s')) /\
  (FailureAtomic db -> database_of (serve (crudRoutes r) req s) = s).
Proof.
  intros Hresp H500. split; [apply at_most_one_call|].
  pose proof (answered_500_inv r req s resp Hresp H500) as Hinv.
  split; [exact Hinv|]. intros (Hadd & Hget & Hupd & Hdel).
  destruct Hinv as [(e & _ & Hsame) | (e & s' & Hthrows & Hleft)];
    [exact Hsame|].
  rewrite Hleft. destruct Hthrows; eauto.
Qed.


(** C10. When [(collection, id)] names no document and the client's
    [delete] resolves all the same, the Delete answers 200 'Document
    deleted'; the only call it makes is that [delete] (existence is never
    looked up), and the answer is the one given in any other state where
    the [delete] resolves. *)
Theorem delete_of_absent_document_answers_200
    (req : Request) coll docRef snapshot (s s' : db_state) :
  collection (param req "collection") = Normal coll ->
  doc coll (param req "id") = Normal docRef ->
  (get docRef s).1 = Normal snapshot ->
  exists_ snapshot = false ->
  delete docRef s = (Normal tt, s') ->
  response_of (serve delete_delete req s)
    = Some (mkResponse 200 (Text "Document deleted")) /\
  recorded (serve (db:=Spy db) delete_delete req (s, [])) = [CallDelete docRef] /\
  (forall t t',
     delete docRef t = (Normal tt, t') ->
     response_of (serve delete_delete req t)
     = response_of (serve delete_delete req s)).
Proof.
  intros Hcoll Hdoc _ _ Hdel. split; [|split].
  - by rewrite (delete_delete_resolved _ _ _ _ _ Hcoll Hdoc Hdel).
  - unfold_handler. repeat next_step; simplify_eq; reflexivity.
  - intros t t' Hdel'.
    by rewrite (delete_delete_resolved _ _ _ _ _ Hcoll Hdoc Hdel),
               (delete_delete_resolved _ _ _ _ _ Hcoll Hdoc Hdel').
Qed.

End HandlerProperties.

(** ** The theorems at work on the clients *)

Lemma database_exception_gives_500_witness :
  serve (db:=Offline.client) (crudRoutes Create) create_john tt
  = (Normal tt,
     mkWorld (db:=Offline.client) tt [Offline.unavailable]
       (Some (mkResponse 500 (Text "Error creating document")))) /\
  serve (db:=Offline.client) (crudRoutes Read) users_doc0 tt
  = (Normal tt,
     mkWorld (db:=Offline.client) tt [Offline.unavailable]
       (Some (mkResponse 500 (Text "Error reading document")))) /\
  serve (db:=Offline.client) (crudRoutes Delete) users_doc0 tt
  = (Normal tt,
     mkWorld (db:=Offline.client) tt [Offline.unavailable]
       (Some (mkResponse 500 (Text "Error deleting document")))) /\
  serve (db:=Mem.client) (crudRoutes Update) update_age Mem.empty
  = (Normal tt,
     mkWorld (db:=Mem.client) Mem.empty [DbError "not-found" "no document to update"]
       (Some (mkResponse 500 (Text "Error updating document")))).
Proof.
  split; [|split; [|split]].
  - apply (database_exception_gives_500 (db:=Offline.client) Create).
    eapply (add_throws (db:=Offline.client)); vm_compute; reflexivity.
  - apply (database_exception_gives_500 (db:=Offline.client) Read).
    eapply (get_throws (db:=Offline.client)); vm_compute; reflexivity.
  - apply (database_exception_gives_500 (db:=Offline.client) Delete).
    eapply (delete_throws (db:=Offline.client)); vm_compute; reflexivity.
  - apply (database_exception_gives_500 (db:=Mem.client) Update).
    eapply (update_throws (db:=Mem.client)); vm_compute; reflexivity.
Defined.

Lemma read_responds_404_iff_absent_witness :
  (response_of (serve (db:=Mem.client) get_read users_doc0 after_create)
     = Some (mkResponse 404 (Text "Document not found"))
   <-> true = false) /\
  (true = true ->
   response_of (serve (db:=Mem.client) get_read users_doc0 after_create)
     = Some (mkResponse 200 (Json (VObj john)))).
Proof.
  apply (read_responds_404_iff_absent (db:=Mem.client) users_doc0
           "users" ("users", "doc0") (mkSnapshot true (VObj john))
           after_create after_create);
    vm_compute; reflexivity.
Defined.

Lemma create_responds_201_with_new_id_witness :
  serve (db:=Mem.client) post_create create_john Mem.empty
  = (Normal tt,
     mkWorld (db:=Mem.client) after_create []
       (Some (mkResponse 201 (Json (VObj {[ "id" := VStr "doc0" ]}))))).
Proof.
  apply (create_responds_201_with_new_id (db:=Mem.client) create_john
           (VStr "users") (VObj john) "users" ("users", "doc0")
           Mem.empty after_create);
    vm_compute; reflexivity.
Defined.







Lemma data_forwarded_unchanged_witness :
  recorded (serve (db:=Spy Mem.client) post_create create_john (Mem.empty, []))
  = [CallAdd (db:=Mem.client) "users" (VObj john)] /\
  recorded (serve (db:=Spy Mem.client) put_update update_age (after_create, []))
  = [CallUpdate (db:=Mem.client) ("users", "doc0") (VObj {[ "age" := VNum 31 ]})].
Proof.
  split.
  - apply (proj1 (data_forwarded_unchanged (db:=Mem.client) create_john
                    (VObj john) eq_refl) (VStr "users") "users" Mem.empty);
      vm_compute; reflexivity.
  - apply (proj2 (data_forwarded_unchanged (db:=Mem.client) update_age
                    (VObj {[ "age" := VNum 31 ]}) eq_refl)
             "users" ("users", "doc0") after_create);
      vm_compute; reflexivity.
Defined.

Lemma failed_request_leaves_database_witness :
  (length (recorded (serve (db:=Spy Mem.client) (crudRoutes Update)
                       update_age (Mem.empty, []))) <= 1)%nat /\
  database_of (serve (db:=Mem.client) (crudRoutes Update) update_age Mem.empty)
  = Mem.empty.
Proof.
  destruct (failed_request_leaves_database (db:=Mem.client)
              Update update_age Mem.empty
              (mkResponse 500 (Text "Error updating document")))
    as (Hone & _ & Hlawful); try (vm_compute; reflexivity).
  split; [exact Hone|exact (Hlawful mem_failure_atomic)].
Defined.

(** On a client whose [add] writes and then rejects, a Create answers 500
    and the document is in the database, where a Read finds it. *)
Lemma failed_request_leaves_database_counterexample :
  response_of
    (serve (db:=Unlawful.committing) (crudRoutes Create) create_john Mem.empty)
    = Some (mkResponse 500 (Text "Error creating document")) /\
  database_of
    (serve (db:=Unlawful.committing) (crudRoutes Create) create_john Mem.empty)
    <> Mem.empty /\
  response_of
    (serve (db:=Unlawful.committing) get_read users_doc0
       (database_of
          (serve (db:=Unlawful.committing) (crudRoutes Create) create_john
             Mem.empty)))
    = Some (mkResponse 200 (Json (VObj john))).
Proof.
  split; [|split]; vm_compute; [reflexivity | discriminate | reflexivity].
Qed.



Lemma delete_of_absent_document_answers_200_witness :
  response_of (serve (db:=Mem.client) delete_delete users_doc0 Mem.empty)
    = Some (mkResponse 200 (Text "Document deleted")) /\
  recorded (serve (db:=Spy Mem.client) delete_delete users_doc0 (Mem.empty, []))
    = [CallDelete (db:=Mem.client) ("users", "doc0")] /\
  (forall t t',
     delete (FirestoreClient:=Mem.client) ("users", "doc0") t = (Normal tt, t') ->
     response_of (serve (db:=Mem.client) delete_delete users_doc0 t)
     = response_of (serve (db:=Mem.client) delete_delete users_doc0 Mem.empty)).
Proof.
  apply (delete_of_absent_document_answers_200 (db:=Mem.client) users_doc0
           "users" ("users", "doc0") (mkSnapshot false VUndefined)
           Mem.empty Mem.empty);
    vm_compute; reflexivity.
Defined.

(** ** Further properties of the handlers *)

Section MoreHandlerProperties.
Context {db : FirestoreClient}.

(** X2. Whatever the request, the database and the client, each route
    answers with one of its own responses: Create with 201 [{id}] or 500,
    Read with 200 and a JSON body, 404 or 500, Update and Delete with 200
    or 500, each with its fixed text. *)
Theorem response_is_one_of_the_route
    (r : route) (req : Request) (s : db_state) :
  exists resp,
    response_of (serve (crudRoutes r) req s) = Some resp /\ may_send r resp.
Proof.
  destruct r; unfold_handler; repeat next_step;
    (eexists; split; [reflexivity|]); cbn; eauto.
Qed.

(** X3. An error is logged exactly when 500 is sent: after a request
    answered with 500 the console holds one error, and after any other
    answer it is empty. *)
Theorem error_logged_iff_500 (r : route) (req : Request) (s : db_state) :
  exists resp,
    response_of (serve (crudRoutes r) req s) = Some resp /\
    (status resp = 500 -> exists e, console (serve (crudRoutes r) req s).2 = [e]) /\
    (status resp <> 500 -> console (serve (crudRoutes r) req s).2 = []).
Proof.
  destruct r; unfold_handler; repeat next_step;
    (eexists; split; [reflexivity|]); cbn; split; intros; eauto; done.
Qed.

(** X4. A Create or an Update whose body is [undefined] or [null] (no
    body was parsed) is answered with 500 and the route's message, logs
    the [TypeError] of the destructuring, asks nothing of the client and
    leaves the database as it was. *)
Theorem missing_body_answers_500
    (r : route) (req : Request) (s : db_state) :
  r = Create \/ r = Update ->
  body req = VUndefined \/ body req = VNull ->
  exists message,
    serve (crudRoutes r) req s
    = (Normal tt,
       mkWorld s [TypeError message]
         (Some (mkResponse 500 (Text (static_message r))))) /\
    recorded (serve (db:=Spy db) (crudRoutes r) req (s, [])) = [].
Proof.
  intros [-> | ->] [Hb | Hb]; unfold_handler; rewrite Hb; cbn;
    eexists; split; reflexivity.
Qed.

(** X5. When a request throws before its awaited call (the body cannot
    be destructured, or [collection] or [doc] rejects the path), it is
    answered with 500 and the route's message, the exception is logged,
    no awaited call is made and the database is left as it was. *)
Theorem early_throw_answers_500_without_call
    (r : route) (req : Request) (e : exn) (s : db_state) :
  throws_before_call r req e ->
  serve (crudRoutes r) req s
  = (Normal tt,
     mkWorld s [e] (Some (mkResponse 500 (Text (static_message r))))) /\
  recorded (serve (db:=Spy db) (crudRoutes r) req (s, [])) = [].
Proof.
  destruct 1; unfold_handler; repeat next_step; split; reflexivity.
Qed.

(** X6. A status other than 500 is sent exactly when the awaited call
    resolved; the database is then in the state that call left. *)
Theorem non_500_iff_call_resolved
    (r : route) (req : Request) (s : db_state) resp :
  response_of (serve (crudRoutes r) req s) = Some resp ->
  (status resp <> 500 <-> exists s', awaited_call_resolves r req s s') /\
  (forall s', awaited_call_resolves r req s s' ->
              database_of (serve (crudRoutes r) req s) = s').
Proof.
  intros Hresp. split; [split|].
  - intros Hne. destruct r; unfold_handler; repeat next_step; simplify_eq;
      repeat match goal with u : unit |- _ => destruct u end;
      eexists; econstructor; eauto.
  - intros [s' Hres]. destruct Hres; unfold_handler; repeat next_step;
      simplify_eq; try done; by destruct (exists_ _).
  - intros s' Hres. destruct Hres; unfold_handler; repeat next_step;
      simplify_eq; try done; by destruct (exists_ _).
Qed.

(** X7. When the [update] call resolves, the Update is answered with 200
    'Document updated' whatever the payload, nothing is logged, and the
    database is in the state that [update] left. *)
Theorem update_resolved_answers_200
    (req : Request) d coll docRef (s s' : db_state) :
  get_property (body req) "data" = Normal d ->
  collection (param req "collection") = Normal coll ->
  doc coll (param req "id") = Normal docRef ->
  update docRef d s = (Normal tt, s') ->
  serve put_update req s
  = (Normal tt, mkWorld s' [] (Some (mkResponse 200 (Text "Document updated")))).
Proof.
  intros Hd Hcoll Hdoc Hupd. unfold_handler. repeat next_step. reflexivity.
Qed.

(** X8. Nothing is validated: when the body is an object without a
    [data] field, a Create calls [add] and an Update calls [update] with
    [undefined] as the data. *)
Theorem missing_data_is_forwarded_as_undefined
    (req : Request) (m : gmap string value) :
  body req = VObj m ->
  m !! "data" = None ->
  (forall coll s,
     collection (default VUndefined (m !! "collection")) = Normal coll ->
     recorded (serve (db:=Spy db) post_create req (s, []))
     = [CallAdd coll VUndefined]) /\
  (forall coll docRef s,
     collection (param req "collection") = Normal coll ->
     doc coll (param req "id") = Normal docRef ->
     recorded (serve (db:=Spy db) put_update req (s, []))
     = [CallUpdate docRef VUndefined]).
Proof.
  intros Hb Hm. split.
  - intros coll s Hcoll. unfold_handler. rewrite Hb. cbn. rewrite Hm. cbn.
    rewrite Hcoll. by destruct (add coll VUndefined s) as [[]].
  - intros coll docRef s Hcoll Hdoc. unfold_handler. rewrite Hb. cbn.
    rewrite Hm. cbn. rewrite Hcoll, Hdoc.
    by destruct (update docRef VUndefined s) as [[]].
Qed.

End MoreHandlerProperties.

(** ** Properties of the router *)

Section RouterProperties.
Variable path_match : string -> string -> option (gmap string string).

Lemma dispatch_app (r1 r2 : Express.Router) m path :
  Express.dispatch path_match (r1 ++ r2) m path
  = match Express.dispatch path_match r1 m path with
    | Some found => Some found
    | None => Express.dispatch path_match r2 m path
    end.
Proof.
  induction r1 as [|l r1 IH]; [reflexivity|]. cbn.
  destruct (Express.handles_method l m); [|exact IH].
  destruct (path_match (Express.layer_path l) path); [reflexivity|exact IH].
Qed.

(** Whether a request reaches some layer depends on the methods and the
    paths of the stack only, not on the handlers. *)
Lemma dispatch_none_same_routes (r1 r2 : Express.Router) m path :
  Forall2 (fun l1 l2 =>
             Express.layer_method l1 = Express.layer_method l2 /\
             Express.layer_path l1 = Express.layer_path l2) r1 r2 ->
  Express.dispatch path_match r1 m path = None ->
  Express.dispatch path_match r2 m path = None.
Proof.
  induction 1 as [|l1 l2 r1 r2 [Hm Hp] _ IH]; [done|]. cbn.
  unfold Express.handles_method. rewrite Hm, Hp.
  destruct (bool_decide (Express.layer_method l2 = _)); [|exact IH].
  destruct (path_match (Express.layer_path l2) path); [done|exact IH].
Qed.

(** X10. The router is shared by all the calls of [crudRoutes]: after a
    second call, with another client, every request is still handed to
    the layer it reached before, so the handlers of the second client
    are never run. *)
Theorem second_registration_is_never_reached
    (db1 db2 : FirestoreClient) (r : Express.Router)
    (m : Express.method) (path : string) :
  Express.dispatch path_match
    (Express.crudRoutes db2 (Express.crudRoutes db1 r)) m path
  = Express.dispatch path_match (Express.crudRoutes db1 r) m path.
Proof.
  unfold Express.crudRoutes at 1. rewrite dispatch_app.
  destruct (Express.dispatch path_match (Express.crudRoutes db1 r) m path)
    as [found|] eqn:Hfirst; [reflexivity|].
  unfold Express.crudRoutes in Hfirst. rewrite dispatch_app in Hfirst.
  destruct (Express.dispatch path_match r m path); [discriminate|].
  revert Hfirst. apply dispatch_none_same_routes.
  repeat constructor.
Qed.

End RouterProperties.

(** ** What an answer tells the caller *)

Section Answers.
Context {db : FirestoreClient}.

(** X11. A Read is answered with 404 only when [get] resolved with a
    snapshot that does not exist, and with 200 only when it resolved with
    one that exists, whose data is the body: an error of the client is
    never reported as a missing document. *)
Theorem read_answer_reflects_the_snapshot
    (req : Request) (s : db_state) resp :
  response_of (serve get_read req s) = Some resp ->
  status resp <> 500 ->
  exists coll docRef snapshot s',
    collection (param req "collection") = Normal coll /\
    doc coll (param req "id") = Normal docRef /\
    get docRef s = (Normal snapshot, s') /\
    resp = (if exists_ snapshot
            then mkResponse 200 (Json (data snapshot))
            else mkResponse 404 (Text "Document not found")).
Proof.
  unfold_handler. repeat next_step; intros; simplify_eq;
    match goal with
    | H : negb ?b = _ |- _ => destruct b eqn:?; try discriminate H
    end;
    do 4 eexists; repeat (split; [eassumption || reflexivity|]);
    by match goal with H : exists_ _ = _ |- _ => rewrite H end.
Qed.

(** X12. A Create is answered with 201 only when [add] resolved, and the
    [id] of the body is then the identifier of the reference that [add]
    returned, for the collection and the data of the body. *)
Theorem create_201_carries_the_added_id
    (req : Request) (s : db_state) resp :
  response_of (serve post_create req s) = Some resp ->
  status resp = 201 ->
  exists c d coll docRef s',
    get_property (body req) "collection" = Normal c /\
    get_property (body req) "data" = Normal d /\
    collection c = Normal coll /\
    add coll d s = (Normal docRef, s') /\
    resp = mkResponse 201 (Json (VObj {[ "id" := VStr (ref_id docRef) ]})) /\
    database_of (serve post_create req s) = s'.
Proof.
  unfold_handler. repeat next_step; intros; simplify_eq.
  do 5 eexists. repeat (split; [eassumption || reflexivity|]). reflexivity.
Qed.

End Answers.

(** ** The further properties at work on the in-memory store *)

Lemma missing_body_answers_500_witness :
  exists message,
    serve (db:=Mem.client) (crudRoutes Create) (mkRequest ∅ VUndefined) Mem.empty
    = (Normal tt,
       mkWorld (db:=Mem.client) Mem.empty [TypeError message]
         (Some (mkResponse 500 (Text "Error creating document")))) /\
    recorded (serve (db:=Spy Mem.client) (crudRoutes Create)
                (mkRequest ∅ VUndefined) (Mem.empty, [])) = [].
Proof.
  apply (missing_body_answers_500 (db:=Mem.client) Create
           (mkRequest ∅ VUndefined) Mem.empty);
    left; reflexivity.
Defined.

Lemma early_throw_answers_500_without_call_witness :
  serve (db:=Mem.client) (crudRoutes Create) (mkRequest ∅ (VObj ∅)) Mem.empty
  = (Normal tt,
     mkWorld (db:=Mem.client) Mem.empty
       [Mem.invalid_argument "path is not a string"]
       (Some (mkResponse 500 (Text "Error creating document")))) /\
  recorded (serve (db:=Spy Mem.client) (crudRoutes Create)
              (mkRequest ∅ (VObj ∅)) (Mem.empty, [])) = [].
Proof.
  apply (early_throw_answers_500_without_call (db:=Mem.client) Create
           (mkRequest ∅ (VObj ∅))
           (Mem.invalid_argument "path is not a string") Mem.empty).
  apply (create_collection_throws (db:=Mem.client)
           (mkRequest ∅ (VObj ∅)) VUndefined VUndefined);
    vm_compute; reflexivity.
Defined.

Lemma non_500_iff_call_resolved_witness :
  (status (mkResponse 201 (Json (VObj {[ "id" := VStr "doc0" ]}))) <> 500
   <-> exists s',
         awaited_call_resolves (db:=Mem.client) Create create_john Mem.empty s') /\
  (forall s',
     awaited_call_resolves (db:=Mem.client) Create create_john Mem.empty s' ->
     database_of (serve (db:=Mem.client) (crudRoutes Create) create_john Mem.empty)
     = s').
Proof.
  apply (non_500_iff_call_resolved (db:=Mem.client) Create create_john Mem.empty
           (mkResponse 201 (Json (VObj {[ "id" := VStr "doc0" ]})))).
  vm_compute. reflexivity.
Defined.

Lemma update_resolved_answers_200_witness :
  serve (db:=Mem.client) put_update update_age after_create
  = (Normal tt,
     mkWorld (db:=Mem.client) after_update []
       (Some (mkResponse 200 (Text "Document updated")))).
Proof.
  apply (update_resolved_answers_200 (db:=Mem.client) update_age
           (VObj {[ "age" := VNum 31 ]}) "users" ("users", "doc0")
           after_create after_update);
    vm_compute; reflexivity.
Defined.

Lemma missing_data_is_forwarded_as_undefined_witness :
  (forall coll s,
     collection (FirestoreClient:=Mem.client)
       (default VUndefined
          (({[ "collection" := VStr "users" ]} : gmap string value) !! "collection"))
     = Normal coll ->
     recorded (serve (db:=Spy Mem.client) post_create
                 (mkRequest (path_params "users" "doc0")
                    (VObj {[ "collection" := VStr "users" ]})) (s, []))
     = [CallAdd (db:=Mem.client) coll VUndefined]) /\
  (forall coll docRef s,
     collection (FirestoreClient:=Mem.client) (VStr "users") = Normal coll ->
     doc (FirestoreClient:=Mem.client) coll (VStr "doc0") = Normal docRef ->
     recorded (serve (db:=Spy Mem.client) put_update
                 (mkRequest (path_params "users" "doc0")
                    (VObj {[ "collection" := VStr "users" ]})) (s, []))
     = [CallUpdate (db:=Mem.client) docRef VUndefined]).
Proof.
  apply (missing_data_is_forwarded_as_undefined (db:=Mem.client)
           (mkRequest (path_params "users" "doc0")
              (VObj {[ "collection" := VStr "users" ]}))
           {[ "collection" := VStr "users" ]});
    vm_compute; reflexivity.
Defined.

Lemma read_answer_reflects_the_snapshot_witness :
  exists coll docRef snapshot s',
    collection (FirestoreClient:=Mem.client) (param users_doc0 "collection")
      = Normal coll /\
    doc (FirestoreClient:=Mem.client) coll (param users_doc0 "id")
      = Normal docRef /\
    get (FirestoreClient:=Mem.client) docRef Mem.empty = (Normal snapshot, s') /\
    mkResponse 404 (Text "Document not found")
    = (if exists_ snapshot
       then mkResponse 200 (Json (data snapshot))
       else mkResponse 404 (Text "Document not found")).
Proof.
  apply (read_answer_reflects_the_snapshot (db:=Mem.client) users_doc0 Mem.empty
           (mkResponse 404 (Text "Document not found")));
    vm_compute; [reflexivity | discriminate].
Defined.

Lemma create_201_carries_the_added_id_witness :
  exists c d coll docRef s',
    get_property (body create_john) "collection" = Normal c /\
    get_property (body create_john) "data" = Normal d /\
    collection (FirestoreClient:=Mem.client) c = Normal coll /\
    add (FirestoreClient:=Mem.client) coll d Mem.empty = (Normal docRef, s') /\
    mkResponse 201 (Json (VObj {[ "id" := VStr "doc0" ]}))
    = mkResponse 201
        (Json (VObj {[ "id" := VStr (ref_id (FirestoreClient:=Mem.client) docRef) ]})) /\
    database_of (serve (db:=Mem.client) post_create create_john Mem.empty) = s'.
Proof.
  apply (create_201_carries_the_added_id (db:=Mem.client) create_john Mem.empty
           (mkResponse 201 (Json (VObj {[ "id" := VStr "doc0" ]}))));
    vm_compute; reflexivity.
Defined.
